(** * The dbt-core-interface client of vscode-sqlfluff

    A shallow embedding of [src/features/helper/dbtInterface.ts]: the URL
    builders [getLintURL] and [getFormatURL], the health probe
    [healthCheck], and the two requests [lint] and [format], together with
    the properties stated about them.

    The pure part (URL construction) is a function on strings.  The
    effectful part (timers, HTTP requests, the output channel, thrown
    errors) lives in a small monad that threads the timer counter, records
    every call made to the outside world and carries JavaScript's abrupt
    completions. *)

From Stdlib Require Import ZArith Lia Ascii String List.
From stdpp Require Import base strings gmap list.

(** ** JavaScript strings

    Strings are [string]: the bytes of the UTF-8 text.  The operations below
    are the ones the program applies to them. *)

Module JsString.

(** [`${x}`] for [x : string | undefined]. *)
Definition template (x : option string) : string :=
  match x with
  | Some s => s
  | None => "undefined"
  end.

(** [if (s)]: a string is truthy unless it is empty. *)
Definition truthy (s : string) : bool :=
  match s with
  | EmptyString => false
  | String _ _ => true
  end.

(** [hay.includes(needle)]. *)
Fixpoint includes (needle hay : string) : bool :=
  if String.prefix needle hay then true
  else match hay with
       | EmptyString => false
       | String _ rest => includes needle rest
       end.

(** [s.endsWith(suffix)]. *)
Fixpoint endsWith (suffix s : string) : bool :=
  if String.eqb suffix s then true
  else match s with
       | EmptyString => false
       | String _ rest => endsWith suffix rest
       end.

(** Does the character occur in the string? *)
Fixpoint occurs (c : ascii) (s : string) : bool :=
  match s with
  | EmptyString => false
  | String x rest => if Ascii.eqb c x then true else occurs c rest
  end.

End JsString.

Import JsString.

(** ** Configuration

    [Configuration] is imported by the source file, its code is elsewhere.
    The file only ever interpolates the two values into template literals,
    so the record holds the text each lookup renders to. *)

Record Configuration := {
  dbtInterfaceHost : string;
  dbtInterfacePort : string
}.

(** ** The data model *)

Inductive DbtInterfaceErrorCode :=
| FailedToReachServer
| CompileSqlFailure
| ExecuteSqlFailure
| ProjectParseFailure
| UnlintableUnfixable.

(** The numeric value of each member of the enum. *)
Definition code_value (c : DbtInterfaceErrorCode) : Z :=
  match c with
  | FailedToReachServer => -1
  | CompileSqlFailure => 1
  | ExecuteSqlFailure => 2
  | ProjectParseFailure => 3
  | UnlintableUnfixable => 0
  end.

(** [string | number], the values of the [data] dictionary. *)
Inductive DataValue :=
| DString (s : string)
| DNumber (z : Z).

Record ErrorBody := {
  code : DbtInterfaceErrorCode;
  message : string;
  data : gmap string DataValue
}.

Record DbtInterfaceErrorContainer := {
  error : ErrorBody
}.

Definition projectNotRegisteredError : DbtInterfaceErrorContainer :=
  {| error :=
       {| code := CompileSqlFailure;
          message := "Sqlfluff currently unavailable. Check that your project does not contain compilation errors.";
          data := {[ "error" := DString "" ]} |} |}.

(** The fields of a [DbtInterface] instance. *)
Record DbtInterface := {
  sql : option string;
  sql_path : option string;
  extra_config_path : string
}.

(** ** URL construction *)

Section Urls.

Variable cfg : Configuration.

(** [`http://${host}:${port}`], the prefix of every URL of the file. *)
Definition origin : string :=
  "http://" +:+ dbtInterfaceHost cfg +:+ ":" +:+ dbtInterfacePort cfg.

Definition getLintURL (this : DbtInterface) : string :=
  let url :=
    "http://" +:+ dbtInterfaceHost cfg +:+ ":" +:+ dbtInterfacePort cfg
      +:+ "/lint?sql_path=" +:+ template (sql_path this) in
  let url :=
    match sql this with
    | Some _ =>
        "http://" +:+ dbtInterfaceHost cfg +:+ ":" +:+ dbtInterfacePort cfg
          +:+ "/lint?"
    | None => url
    end in
  let url :=
    if truthy (extra_config_path this)
    then url +:+ ("&extra_config_path=" +:+ extra_config_path this)
    else url in
  url.

Definition getFormatURL (this : DbtInterface) : string :=
  let url :=
    "http://" +:+ dbtInterfaceHost cfg +:+ ":" +:+ dbtInterfacePort cfg
      +:+ "/format?sql_path=" +:+ template (sql_path this) in
  let url :=
    match sql this with
    | Some _ =>
        "http://" +:+ dbtInterfaceHost cfg +:+ ":" +:+ dbtInterfacePort cfg
          +:+ "/format?"
    | None => url
    end in
  let url :=
    if truthy (extra_config_path this)
    then url +:+ ("&extra_config_path=" +:+ extra_config_path this)
    else url in
  url.

(** [`http://${host}:${port}/health`]. *)
Definition healthURL : string :=
  "http://" +:+ dbtInterfaceHost cfg +:+ ":" +:+ dbtInterfacePort cfg
    +:+ "/health".

End Urls.

(** [encodeURI]: every byte outside the unescaped set (letters, digits and
    [; / ? : @ & = + $ , - _ . ! ~ * ' ( ) #]) is replaced by its percent
    escape.  On UTF-8 text this is what the builtin computes; a lone
    surrogate, on which the builtin throws, is not UTF-8 text. *)

Definition hex_digit (n : N) : ascii :=
  match n with
  | 0 => "0" | 1 => "1" | 2 => "2" | 3 => "3" | 4 => "4" | 5 => "5"
  | 6 => "6" | 7 => "7" | 8 => "8" | 9 => "9" | 10 => "A" | 11 => "B"
  | 12 => "C" | 13 => "D" | 14 => "E" | _ => "F"
  end%N%char.

Definition uri_unescaped (c : ascii) : bool :=
  let n := N_of_ascii c in
  ((97 <=? n) && (n <=? 122) || (65 <=? n) && (n <=? 90)
   || (48 <=? n) && (n <=? 57))%N
  || occurs c ";/?:@&=+$,-_.!~*'()#".

Fixpoint encodeURI (s : string) : string :=
  match s with
  | EmptyString => EmptyString
  | String c rest =>
      if uri_unescaped c then String c (encodeURI rest)
      else String "%" (String (hex_digit (N_of_ascii c / 16))
                         (String (hex_digit (N_of_ascii c mod 16))
                            (encodeURI rest)))
  end.

(** ** The runtime around the client

    What the client calls and what comes back: thrown errors, JSON values,
    HTTP requests and responses, timers, abort controllers and the output
    channel. *)

(** A thrown value: an [Error] with its name and message. *)
Record JsError := {
  err_name : string;
  err_message : string
}.

(** What [fetch] throws once its signal is aborted. *)
Definition AbortError : JsError :=
  {| err_name := "AbortError"; err_message := "The user aborted a request." |}.

(** How an awaited computation completes. *)
Inductive Completion (A : Type) :=
| Normal (a : A)
| Throw (e : JsError).
Arguments Normal {A} a.
Arguments Throw {A} e.

(** The values [JSON.parse] produces; a number keeps its literal. *)
#[local] Unset Elimination Schemes.
Inductive Json :=
| JNull
| JBool (b : bool)
| JNumber (literal : string)
| JString (s : string)
| JArray (items : list Json)
| JObject (members : list (string * Json)).
#[local] Set Elimination Schemes.

(** A response as the client uses it: its status, and what awaiting its
    [json()] gives, the parsed body or the error thrown while reading or
    parsing it. *)
Record Response := {
  status : Z;
  json : Completion Json
}.

Inductive Method := GET | POST.

Record Request := {
  method : Method;
  url : string;
  body : option string
}.

(** What happens to a request: the server answers, the request fails, or
    nothing settles it before the timer guarding it fires. *)
Inductive FetchOutcome :=
| Resolves (r : Response)
| Rejects (e : JsError)
| Stalls.

(** The behaviour of the network, unknown to the client.  One call of
    [healthCheck], [lint] or [format] sends each of its requests once, so
    a function of the request describes every behaviour it can meet. *)
Definition Network := Request -> FetchOutcome.

Definition Timer := nat.
Definition Controller := nat.

(** The argument of [outputChannel.appendLine]: a text, or the caught
    error passed as it is ([error as string]). *)
Inductive Line :=
| Text (s : string)
| Raw (e : JsError).

(** The calls the client makes to the outside, and the one callback the
    runtime makes for it. *)
Inductive Event :=
| SetTimeout (t : Timer) (aborts : Controller) (ms : Z)
| ClearTimeout (t : Timer)
| Aborted (c : Controller)
| Fetch (req : Request) (signal : Controller)
| AppendHyphenatedLine
| AppendLine (l : Line).

(** The handles given out so far. *)
Record World := {
  timers_made : nat;
  controllers_made : nat
}.

(** The result of running a computation: how it completed, the events it
    caused in order, and the world it leaves. *)
Record Reply (A : Type) := {
  outcome : Completion A;
  events : list Event;
  world : World
}.
Arguments outcome {A} r.
Arguments events {A} r.
Arguments world {A} r.

(** ** The monad of asynchronous computations *)

Definition M (A : Type) : Type := World -> Reply A.

#[export] Instance M_ret : MRet M := fun A a w =>
  {| outcome := Normal a; events := []; world := w |}.

#[export] Instance M_bind : MBind M := fun A B k m w =>
  let r := m w in
  match outcome r with
  | Normal a =>
      let r' := k a (world r) in
      {| outcome := outcome r'; events := events r ++ events r';
         world := world r' |}
  | Throw e => {| outcome := Throw e; events := events r; world := world r |}
  end.

(** [throw e]. *)
Definition throw {A} (e : JsError) : M A := fun w =>
  {| outcome := Throw e; events := []; world := w |}.

(** [await] of something whose completion is known. *)
Definition await {A} (c : Completion A) : M A := fun w =>
  {| outcome := c; events := []; world := w |}.

(** Record one call to the outside. *)
Definition emit (e : Event) : M unit := fun w =>
  {| outcome := Normal tt; events := [e]; world := w |}.

(** [try { m } catch (e) { handler e }]. *)
Definition try_catch {A} (m : M A) (handler : JsError -> M A) : M A := fun w =>
  let r := m w in
  match outcome r with
  | Normal a => r
  | Throw e =>
      let r' := handler e (world r) in
      {| outcome := outcome r'; events := events r ++ events r';
         world := world r' |}
  end.

(** [try { m } finally { final }]: [final] runs on every exit; the
    completion of [m] stands unless [final] throws. *)
Definition try_finally {A} (m : M A) (final : M unit) : M A := fun w =>
  let r := m w in
  let r' := final (world r) in
  {| outcome := match outcome r' with
                | Normal _ => outcome r
                | Throw e => Throw e
                end;
     events := events r ++ events r';
     world := world r' |}.

(** [let x; try { x = m } catch (e) { return handler e }], followed by the
    rest of the function [rest x], which the [try] does not protect. *)
Definition try_or_return {A B} (m : M A) (handler : JsError -> M B)
    (rest : A -> M B) : M B := fun w =>
  let r := m w in
  let r' := match outcome r with
            | Normal a => rest a (world r)
            | Throw e => handler e (world r)
            end in
  {| outcome := outcome r'; events := events r ++ events r';
     world := world r' |}.

(** ** The primitives *)

(** [new AbortController()]. *)
Definition newAbortController : M Controller := fun w =>
  {| outcome := Normal (controllers_made w); events := [];
     world := {| timers_made := timers_made w;
                 controllers_made := S (controllers_made w) |} |}.

(** [setTimeout(() => { c.abort(); }, ms)]. *)
Definition setTimeout (c : Controller) (ms : Z) : M Timer := fun w =>
  {| outcome := Normal (timers_made w);
     events := [SetTimeout (timers_made w) c ms];
     world := {| timers_made := S (timers_made w);
                 controllers_made := controllers_made w |} |}.

Definition clearTimeout (t : Timer) : M unit := emit (ClearTimeout t).

(** [Utilities] is imported by the source file, its code is elsewhere; its
    two entry points are calls to the outside. *)
Definition appendHyphenatedLine : M unit := emit AppendHyphenatedLine.
Definition appendLine (l : Line) : M unit := emit (AppendLine l).

(** What [lint] and [format] return: one of the two local payloads, or
    the parsed body of the response. *)
Inductive Returned :=
| Payload (c : DbtInterfaceErrorContainer)
| Parsed (v : Json).

Section Client.

Variable cfg : Configuration.
Variable net : Network.

(** [await fetch(url, { method, signal, body })].  When nothing settles
    the request, the timer guarding it fires, its callback aborts the
    controller and [fetch] throws. *)
Definition fetch (req : Request) (signal : Controller) : M Response :=
  emit (Fetch req signal) ;;
  match net req with
  | Resolves r => mret r
  | Rejects e => throw e
  | Stalls => emit (Aborted signal) ;; throw AbortError
  end.

Definition healthRequest : Request :=
  {| method := GET; url := healthURL cfg; body := None |}.

(** The method does not read the fields of its instance. *)
Definition healthCheck : M bool :=
  abortController ← newAbortController;
  timeoutHandler ← setTimeout abortController 1000;
  try_finally
    (try_catch
       (response ← fetch healthRequest abortController;
        if (status response =? 200)%Z then mret true else mret false)
       (fun e => mret false))
    (clearTimeout timeoutHandler).

(** The constant that [lint] and [format] each build on entry, before
    anything else. *)
Definition failedToReachServerError : DbtInterfaceErrorContainer :=
  {| error :=
       {| code := FailedToReachServer;
          message := "Query failed to reach dbt sync server.";
          data := {[ "error" :=
                       DString ("Is the server listening on the http://"
                                  +:+ dbtInterfaceHost cfg +:+ ":"
                                  +:+ dbtInterfacePort cfg
                                  +:+ " address?") ]} |} |}.

Definition lintRequest (this : DbtInterface) : Request :=
  {| method := POST; url := encodeURI (getLintURL cfg this);
     body := sql this |}.

Definition formatRequest (this : DbtInterface) : Request :=
  {| method := POST; url := encodeURI (getFormatURL cfg this);
     body := sql this |}.

(** [timeout] is [None] when the caller leaves the argument out. *)
Definition lint (this : DbtInterface) (timeout : option Z) : M Returned :=
  let timeout := default 25000%Z timeout in
  healthy ← healthCheck;
  if negb healthy then
    appendHyphenatedLine ;;
    appendLine (Text "Unhealthy dbt project:") ;;
    appendHyphenatedLine ;;
    mret (Payload projectNotRegisteredError)
  else
    abortController ← newAbortController;
    timeoutHandler ← setTimeout abortController timeout;
    try_or_return
      (fetch (lintRequest this) abortController)
      (fun error =>
         appendHyphenatedLine ;;
         appendLine (Text "Raw dbt-core-interface /lint error response:") ;;
         appendHyphenatedLine ;;
         appendLine (Raw error) ;;
         appendHyphenatedLine ;;
         clearTimeout timeoutHandler ;;
         mret (Payload failedToReachServerError))
      (fun response =>
         clearTimeout timeoutHandler ;;
         v ← await (json response);
         mret (Parsed v)).

Definition format (this : DbtInterface) (timeout : option Z) : M Returned :=
  let timeout := default 25000%Z timeout in
  healthy ← healthCheck;
  if negb healthy then
    appendHyphenatedLine ;;
    appendLine (Text "Unhealthy dbt project:") ;;
    appendHyphenatedLine ;;
    mret (Payload projectNotRegisteredError)
  else
    abortController ← newAbortController;
    timeoutHandler ← setTimeout abortController timeout;
    try_or_return
      (fetch (formatRequest this) abortController)
      (fun error =>
         appendHyphenatedLine ;;
         appendLine (Text "Raw dbt-core-interface /format error response:") ;;
         appendHyphenatedLine ;;
         appendLine (Raw error) ;;
         appendHyphenatedLine ;;
         clearTimeout timeoutHandler ;;
         mret (Payload failedToReachServerError))
      (fun response =>
         clearTimeout timeoutHandler ;;
         v ← await (json response);
         mret (Parsed v)).

End Client.

(** ** The paths through [lint] and [format]

    Both functions are the same function of the probe's answer and of what
    the network does to the POST.  [outcome_of] and [events_of] tabulate
    it: [req] is the POST, [label] the line announcing the raw error, [ms]
    the delay of the timer, [t] and [c] the timer and the controller made
    for the POST.  They are proved equal to what the code computes. *)

Section Paths.

Variable cfg : Configuration.
Variable net : Network.

Definition outcome_of (healthy : Completion bool) (req : Request)
    : Completion Returned :=
  match healthy with
  | Normal true =>
      match net req with
      | Resolves r =>
          match json r with
          | Normal v => Normal (Parsed v)
          | Throw e => Throw e
          end
      | _ => Normal (Payload (failedToReachServerError cfg))
      end
  | Normal false => Normal (Payload projectNotRegisteredError)
  | Throw e => Throw e
  end.

Definition events_of (healthy : Completion bool) (req : Request)
    (label : string) (ms : Z) (t : Timer) (c : Controller) : list Event :=
  match healthy with
  | Normal true =>
      SetTimeout t c ms
      :: Fetch req c
      :: match net req with
         | Resolves _ => [ClearTimeout t]
         | Rejects e =>
             [AppendHyphenatedLine; AppendLine (Text label);
              AppendHyphenatedLine; AppendLine (Raw e);
              AppendHyphenatedLine; ClearTimeout t]
         | Stalls =>
             [Aborted c;
              AppendHyphenatedLine; AppendLine (Text label);
              AppendHyphenatedLine; AppendLine (Raw AbortError);
              AppendHyphenatedLine; ClearTimeout t]
         end
  | Normal false =>
      [AppendHyphenatedLine; AppendLine (Text "Unhealthy dbt project:");
       AppendHyphenatedLine]
  | Throw _ => []
  end.

End Paths.

(** ** Reading a list of events *)

(** The requests sent with the given method. *)
Fixpoint requests (m : Method) (evs : list Event) : list Request :=
  match evs with
  | [] => []
  | Fetch req _ :: rest =>
      match m, method req with
      | GET, GET | POST, POST => req :: requests m rest
      | _, _ => requests m rest
      end
  | _ :: rest => requests m rest
  end.

(** The calls that write to the output channel. *)
Fixpoint channel_writes (evs : list Event) : list Event :=
  match evs with
  | [] => []
  | AppendHyphenatedLine :: rest => AppendHyphenatedLine :: channel_writes rest
  | AppendLine l :: rest => AppendLine l :: channel_writes rest
  | _ :: rest => channel_writes rest
  end.

(** The timers created, in order. *)
Fixpoint timers_created (evs : list Event) : list Timer :=
  match evs with
  | [] => []
  | SetTimeout t _ _ :: rest => t :: timers_created rest
  | _ :: rest => timers_created rest
  end.

(** How many times [clearTimeout t] was called. *)
Fixpoint clears_of (t : Timer) (evs : list Event) : nat :=
  match evs with
  | [] => 0
  | ClearTimeout t' :: rest =>
      if Nat.eqb t t' then S (clears_of t rest) else clears_of t rest
  | _ :: rest => clears_of t rest
  end.

(** Every timer created is a timer of its own, and [clearTimeout] was
    called on it once. *)
Definition cleared_exactly_once (evs : list Event) : Prop :=
  List.NoDup (timers_created evs)
  /\ forall t, List.In t (timers_created evs) -> clears_of t evs = 1.

(** Follow the timers through the events: [pending] holds the timers
    created and not yet cleared.  The scan fails on a timer created twice
    and on the clearing of a timer that is not pending. *)
Fixpoint timer_scan (pending : list Timer) (evs : list Event)
    : option (list Timer) :=
  match evs with
  | [] => Some pending
  | SetTimeout t _ _ :: rest =>
      if existsb (Nat.eqb t) pending then None
      else timer_scan (t :: pending) rest
  | ClearTimeout t :: rest =>
      if existsb (Nat.eqb t) pending
      then timer_scan (List.filter (fun t' => negb (Nat.eqb t t')) pending) rest
      else None
  | _ :: rest => timer_scan pending rest
  end.

(** Every timer of the events is created once, cleared once after that,
    and none is left pending. *)
Definition timers_released (evs : list Event) : bool :=
  match timer_scan [] evs with
  | Some [] => true
  | _ => false
  end.

(** ** Networks used as examples *)

Definition ECONNREFUSED : JsError :=
  {| err_name := "FetchError"; err_message := "connect ECONNREFUSED" |}.

Definition unexpected_token : JsError :=
  {| err_name := "SyntaxError";
     err_message := "Unexpected token < in JSON at position 0" |}.

(** The health probe answers 200; the POST is settled by [post]. *)
Definition healthy_server (post : FetchOutcome) : Network := fun req =>
  match method req with
  | GET => Resolves {| status := 200; json := Normal (JObject []) |}
  | POST => post
  end.

(** Nothing listens. *)
Definition no_server : Network := fun _ => Rejects ECONNREFUSED.

(** The probe answers 200 and so does the POST, with a page of HTML. *)
Definition html_server : Network :=
  healthy_server (Resolves {| status := 200; json := Throw unexpected_token |}).

Definition localhost : Configuration :=
  {| dbtInterfaceHost := "localhost"; dbtInterfacePort := "8581" |}.

Definition start : World := {| timers_made := 0; controllers_made := 0 |}.

(** An instance in SQL-text mode. *)
Definition select_1 : DbtInterface :=
  {| sql := Some "select 1"; sql_path := None; extra_config_path := "" |}.

(** ** The query string

    What both builders put after the [?] of the endpoint: the SQL path in
    path mode, nothing in text mode, then the extra-config path when it is
    not empty. *)
Definition queryString (this : DbtInterface) : string :=
  let q :=
    match sql this with
    | Some _ => EmptyString
    | None => "sql_path=" +:+ template (sql_path this)
    end in
  if truthy (extra_config_path this)
  then q +:+ ("&extra_config_path=" +:+ extra_config_path this)
  else q.

(** Do all the characters of a string pass the test? *)
Fixpoint every (p : ascii -> bool) (s : string) : bool :=
  match s with
  | EmptyString => true
  | String c rest => p c && every p rest
  end.

(** The characters [encodeURI] can produce: the unescaped ones and the
    percent sign of an escape. *)
Definition uri_character (c : ascii) : bool :=
  uri_unescaped c || Ascii.eqb c "%".

(** ** More readings of a list of events *)

(** The timers passed to [clearTimeout], in order. *)
Fixpoint timers_cleared (evs : list Event) : list Timer :=
  match evs with
  | [] => []
  | ClearTimeout t :: rest => t :: timers_cleared rest
  | _ :: rest => timers_cleared rest
  end.

(** The delays passed to [setTimeout], in order. *)
Fixpoint timer_delays (evs : list Event) : list Z :=
  match evs with
  | [] => []
  | SetTimeout _ _ ms :: rest => ms :: timer_delays rest
  | _ :: rest => timer_delays rest
  end.

(** The largest number of timers pending at one time, starting from
    [pending] of them. *)
Fixpoint pending_peak (pending : nat) (evs : list Event) : nat :=
  match evs with
  | [] => pending
  | SetTimeout _ _ _ :: rest =>
      Nat.max (S pending) (pending_peak (S pending) rest)
  | ClearTimeout _ :: rest =>
      Nat.max pending (pending_peak (Nat.pred pending) rest)
  | _ :: rest => pending_peak pending rest
  end.

(** * Properties *)

(** ** Facts about the string operations *)

Section StringFacts.

(** The two equations of [String.append], which [simpl] does not unfold
    once stdpp is loaded. *)
Lemma append_nil (b : string) : "" +:+ b = b.
Proof. reflexivity. Qed.

Lemma append_cons (x : ascii) (a b : string) :
  String x a +:+ b = String x (a +:+ b).
Proof. reflexivity. Qed.

Lemma append_assoc (a b c : string) : (a +:+ b) +:+ c = a +:+ (b +:+ c).
Proof.
  induction a as [|x a IH]; rewrite ?append_nil, ?append_cons; congruence.
Qed.

Lemma length_append (a b : string) :
  String.length (a +:+ b) = String.length a + String.length b.
Proof.
  induction a as [|x a IH]; rewrite ?append_nil, ?append_cons;
    cbn [String.length]; lia.
Qed.

Lemma prefix_refl_app (s t : string) : String.prefix s (s +:+ t) = true.
Proof.
  induction s as [|x s IH]; rewrite ?append_nil, ?append_cons;
    [now destruct t |].
  cbn [String.prefix].
  destruct (Ascii.ascii_dec x x) as [_|N]; [exact IH | now destruct N].
Qed.

Lemma includes_here (s t : string) : includes s (s +:+ t) = true.
Proof.
  pose proof (prefix_refl_app s t) as H.
  destruct (s +:+ t); cbn [includes]; now rewrite H.
Qed.

Lemma includes_skip (s a b : string) :
  includes s b = true -> includes s (a +:+ b) = true.
Proof.
  intros H. induction a as [|x a IH]; rewrite ?append_nil, ?append_cons;
    [exact H |].
  cbn [includes]. rewrite IH.
  now destruct (String.prefix s (String x (a +:+ b))).
Qed.

(** A needle sits inside any text built around it. *)
Lemma includes_middle (s a b : string) : includes s (a +:+ s +:+ b) = true.
Proof. apply includes_skip, includes_here. Qed.

Lemma endsWith_refl (s : string) : endsWith s s = true.
Proof. destruct s; cbn [endsWith]; now rewrite String.eqb_refl. Qed.

Lemma endsWith_app (s a : string) : endsWith s (a +:+ s) = true.
Proof.
  induction a as [|x a IH]; rewrite ?append_nil, ?append_cons;
    [apply endsWith_refl |].
  cbn [endsWith]. rewrite IH.
  now destruct (String.eqb s (String x (a +:+ s))).
Qed.

(** Only the end of a text decides whether it ends with a suffix. *)
Lemma endsWith_app_short (s a t : string) :
  String.length s <= String.length t ->
  endsWith s (a +:+ t) = endsWith s t.
Proof.
  intros Hlen. induction a as [|x a IH]; rewrite ?append_nil, ?append_cons;
    [reflexivity |].
  cbn [endsWith]. rewrite IH.
  destruct (String.eqb_spec s (String x (a +:+ t))) as [E|_]; [| reflexivity].
  apply (f_equal String.length) in E.
  cbn [String.length] in E. rewrite length_append in E. lia.
Qed.

(** A needle without the character [c] cannot start before a [c] and
    run across it. *)
Lemma prefix_stops_at (c : ascii) (s a b : string) :
  occurs c s = false ->
  String.prefix s (a +:+ String c b) = true ->
  String.prefix s a = true.
Proof.
  revert a. induction s as [|x s IH]; intros a Hc Hp.
  - now destruct a.
  - cbn [occurs] in Hc. destruct (Ascii.eqb c x) eqn:Ecx; [discriminate |].
    destruct a as [|y a]; rewrite ?append_nil, ?append_cons in Hp;
      cbn [String.prefix] in *.
    + destruct (Ascii.ascii_dec x c) as [->|_]; [| discriminate].
      now rewrite Ascii.eqb_refl in Ecx.
    + destruct (Ascii.ascii_dec x y); [| discriminate]. now apply IH.
Qed.

(** So a needle absent on both sides of a [c] is absent from the whole. *)
Lemma includes_split (c : ascii) (s a b : string) :
  occurs c s = false ->
  includes s a = false ->
  includes s b = false ->
  includes s (a +:+ String c b) = false.
Proof.
  intros Hc Ha Hb. induction a as [|y a IH];
    rewrite ?append_nil, ?append_cons.
  - destruct s as [|x s]; [now destruct b |].
    cbn [includes].
    destruct (String.prefix (String x s) (String c b)) eqn:Ep; [| exact Hb].
    apply (prefix_stops_at c _ EmptyString b Hc) in Ep. discriminate.
  - cbn [includes]. cbn [includes] in Ha.
    destruct (String.prefix s (String y a)) eqn:Ep1; [discriminate |].
    destruct (String.prefix s (String y (a +:+ String c b))) eqn:Ep2.
    + apply (prefix_stops_at c s (String y a) b Hc) in Ep2. congruence.
    + now apply IH.
Qed.

End StringFacts.

(** ** The URL builders *)

Section UrlFacts.

Variable cfg : Configuration.

(** C7. With the SQL text undefined, the path ["models/a.sql"] and an empty
    extra-config path, [getLintURL] is exactly
    [http://<host>:<port>/lint?sql_path=models/a.sql]; it does not end in
    ["&"]. *)
Theorem getLintURL_path_mode :
  let this := {| sql := None; sql_path := Some "models/a.sql";
                 extra_config_path := "" |} in
  getLintURL cfg this
    = "http://" +:+ dbtInterfaceHost cfg +:+ ":" +:+ dbtInterfacePort cfg
        +:+ "/lint?sql_path=models/a.sql"
  /\ endsWith "&" (getLintURL cfg this) = false.
Proof.
  cbv zeta. unfold getLintURL. cbn [sql sql_path extra_config_path truthy template].
  split; [reflexivity |].
  rewrite <- !append_assoc.
  rewrite endsWith_app_short; [reflexivity | cbn; lia].
Qed.

(** The text ["sql_path"] cannot come from the fixed parts of a URL in
    SQL-text mode: if neither the host nor the port holds it, nothing
    does. *)
Lemma no_sql_path_around (tail : string) :
  includes "sql_path" tail = false ->
  includes "sql_path" (dbtInterfaceHost cfg) = false ->
  includes "sql_path" (dbtInterfacePort cfg) = false ->
  includes "sql_path"
    ("http://" +:+ dbtInterfaceHost cfg +:+ ":" +:+ dbtInterfacePort cfg
       +:+ String "/" tail) = false.
Proof.
  intros Ht Hh Hp.
  change ("http://" +:+ dbtInterfaceHost cfg +:+ ":" +:+ dbtInterfacePort cfg
            +:+ String "/" tail)
    with ("http:/" +:+ String "/" (dbtInterfaceHost cfg +:+
            String ":" (dbtInterfacePort cfg +:+ String "/" tail))).
  apply includes_split; [reflexivity | reflexivity |].
  apply includes_split; [reflexivity | exact Hh |].
  apply includes_split; [reflexivity | exact Hp | exact Ht].
Qed.

(** C6. With the SQL text defined and the extra-config path ["cfg.yml"],
    [getLintURL] is the origin followed by
    ["/lint?&extra_config_path=cfg.yml"], whatever the SQL path: it ends
    with that text, leading ["&"] included, and the text ["sql_path"]
    occurs nowhere in it unless the configured host or port brings it. *)
Theorem getLintURL_text_mode_extra (text : string) (path : option string) :
  let this := {| sql := Some text; sql_path := path;
                 extra_config_path := "cfg.yml" |} in
  getLintURL cfg this = origin cfg +:+ "/lint?&extra_config_path=cfg.yml"
  /\ endsWith "/lint?&extra_config_path=cfg.yml" (getLintURL cfg this) = true
  /\ (includes "sql_path" (dbtInterfaceHost cfg) = false ->
      includes "sql_path" (dbtInterfacePort cfg) = false ->
      includes "sql_path" (getLintURL cfg this) = false).
Proof.
  cbv zeta. unfold getLintURL, origin.
  cbn [sql sql_path extra_config_path truthy].
  assert (E : ("http://" +:+ dbtInterfaceHost cfg +:+ ":" +:+
                 dbtInterfacePort cfg +:+ "/lint?")
                +:+ "&extra_config_path=" +:+ "cfg.yml"
              = ("http://" +:+ dbtInterfaceHost cfg +:+ ":" +:+
                   dbtInterfacePort cfg)
                  +:+ "/lint?&extra_config_path=cfg.yml")
    by (rewrite !append_assoc; reflexivity).
  rewrite E. split; [reflexivity |]. split; [apply endsWith_app |].
  intros Hh Hp. rewrite !append_assoc.
  now apply (no_sql_path_around "lint?&extra_config_path=cfg.yml").
Qed.

(** C10. With the SQL text and the SQL path both undefined and an empty
    extra-config path, both builders still produce a URL, and the missing
    path appears in it as the text ["undefined"]. *)
Theorem urls_interpolate_undefined :
  let this := {| sql := None; sql_path := None; extra_config_path := "" |} in
  (getLintURL cfg this = origin cfg +:+ "/lint?sql_path=undefined"
   /\ includes "sql_path=undefined" (getLintURL cfg this) = true)
  /\ (getFormatURL cfg this = origin cfg +:+ "/format?sql_path=undefined"
      /\ includes "sql_path=undefined" (getFormatURL cfg this) = true).
Proof.
  cbv zeta. unfold getLintURL, getFormatURL, origin.
  cbn [sql sql_path extra_config_path truthy template].
  split; (split; [now rewrite !append_assoc |]).
  - change ("/lint?sql_path=" +:+ "undefined")
      with ("/lint?" +:+ "sql_path=undefined" +:+ "").
    rewrite <- !append_assoc, (append_assoc _ "sql_path=undefined" "").
    apply includes_middle.
  - change ("/format?sql_path=" +:+ "undefined")
      with ("/format?" +:+ "sql_path=undefined" +:+ "").
    rewrite <- !append_assoc, (append_assoc _ "sql_path=undefined" "").
    apply includes_middle.
Qed.

End UrlFacts.

(** C6, at the host [localhost] and the port [8581]. *)
Lemma getLintURL_text_mode_extra_witness :
  let cfg := {| dbtInterfaceHost := "localhost"; dbtInterfacePort := "8581" |} in
  let this := {| sql := Some "select 1"; sql_path := Some "models/a.sql";
                 extra_config_path := "cfg.yml" |} in
  getLintURL cfg this = "http://localhost:8581/lint?&extra_config_path=cfg.yml"
  /\ includes "sql_path" (getLintURL cfg this) = false.
Proof.
  pose proof (getLintURL_text_mode_extra
                {| dbtInterfaceHost := "localhost"; dbtInterfacePort := "8581" |}
                "select 1" (Some "models/a.sql")) as (E & _ & N).
  split; [exact E | apply N; reflexivity].
Defined.

(** ** The health probe and the two requests *)

Section EventFacts.

Lemma requests_app (m : Method) (a b : list Event) :
  requests m (a ++ b) = requests m a ++ requests m b.
Proof.
  induction a as [|[| | |req c| |] a IH]; cbn; try exact IH; [reflexivity |].
  destruct m, (method req); cbn; now rewrite IH.
Qed.

Lemma channel_writes_app (a b : list Event) :
  channel_writes (a ++ b) = channel_writes a ++ channel_writes b.
Proof.
  induction a as [|[] a IH]; cbn; now rewrite ?IH.
Qed.

Lemma eqb_succ_r (n : nat) : Nat.eqb n (S n) = false.
Proof. apply Nat.eqb_neq. lia. Qed.

Lemma eqb_succ_l (n : nat) : Nat.eqb (S n) n = false.
Proof. apply Nat.eqb_neq. lia. Qed.

End EventFacts.

Section ClientFacts.

Variable cfg : Configuration.
Variable net : Network.

(** Run the monad, and nothing else: requests and payloads stay
    folded. *)
Ltac run :=
  cbv [mbind mret M_bind M_ret try_catch try_finally try_or_return emit
       throw await clearTimeout appendHyphenatedLine appendLine setTimeout
       newAbortController outcome events world app negb default].

(** Split along what the network does to the probe and to the POST
    before anything is computed, so that each path runs on its own; the
    status of the probe's response and the parsing of the POST's response
    are met on the way. *)
Ltac run_paths req :=
  cbv zeta; unfold lint, format, healthCheck, fetch, outcome_of, events_of;
  destruct (net (healthRequest cfg)) as [rh|eh|];
  [| destruct (net req); reflexivity ..];
  destruct (net req) as [r|e|]; run;
  (destruct (status rh =? 200)%Z; run; [| reflexivity]);
  [destruct (json r) | ..]; reflexivity.

(** *** What [healthCheck] does *)

Lemma healthCheck_outcome (w : World) :
  outcome (healthCheck cfg net w)
    = Normal match net (healthRequest cfg) with
             | Resolves r => (status r =? 200)%Z
             | _ => false
             end.
Proof.
  run_paths (healthRequest cfg).
Qed.

Lemma healthCheck_events (w : World) :
  events (healthCheck cfg net w)
    = SetTimeout (timers_made w) (controllers_made w) 1000
        :: Fetch (healthRequest cfg) (controllers_made w)
        :: match net (healthRequest cfg) with
           | Stalls => [Aborted (controllers_made w)]
           | _ => []
           end
        ++ [ClearTimeout (timers_made w)].
Proof.
  run_paths (healthRequest cfg).
Qed.

(** The probe sends its GET, never a POST, and writes nothing. *)
Lemma healthCheck_quiet (w : World) :
  requests POST (events (healthCheck cfg net w)) = []
  /\ channel_writes (events (healthCheck cfg net w)) = [].
Proof.
  rewrite healthCheck_events.
  destruct (net (healthRequest cfg)); split; reflexivity.
Qed.

(** *** What [lint] and [format] do *)

Lemma lint_outcome (this : DbtInterface) (timeout : option Z) (w : World) :
  outcome (lint cfg net this timeout w)
    = outcome_of cfg net (outcome (healthCheck cfg net w)) (lintRequest cfg this).
Proof. run_paths (lintRequest cfg this). Qed.

Lemma format_outcome (this : DbtInterface) (timeout : option Z) (w : World) :
  outcome (format cfg net this timeout w)
    = outcome_of cfg net (outcome (healthCheck cfg net w)) (formatRequest cfg this).
Proof. run_paths (formatRequest cfg this). Qed.

Lemma lint_events (this : DbtInterface) (timeout : option Z) (w : World) :
  events (lint cfg net this timeout w)
    = events (healthCheck cfg net w)
      ++ events_of net (outcome (healthCheck cfg net w)) (lintRequest cfg this)
           "Raw dbt-core-interface /lint error response:"
           (default 25000%Z timeout)
           (S (timers_made w)) (S (controllers_made w)).
Proof. run_paths (lintRequest cfg this). Qed.

Lemma format_events (this : DbtInterface) (timeout : option Z) (w : World) :
  events (format cfg net this timeout w)
    = events (healthCheck cfg net w)
      ++ events_of net (outcome (healthCheck cfg net w)) (formatRequest cfg this)
           "Raw dbt-core-interface /format error response:"
           (default 25000%Z timeout)
           (S (timers_made w)) (S (controllers_made w)).
Proof. run_paths (formatRequest cfg this). Qed.

(** From here on the three functions are used through the equations
    above only. *)
#[local] Opaque healthCheck lint format.

(** *** The claims *)

(** C8. [healthCheck] always completes normally with a boolean, which is
    [true] exactly when the GET to [/health] resolves with status 200. *)
Theorem healthCheck_boolean (w : World) :
  method (healthRequest cfg) = GET
  /\ url (healthRequest cfg) = origin cfg +:+ "/health"
  /\ exists b : bool,
       outcome (healthCheck cfg net w) = Normal b
       /\ (b = true <->
           exists r, net (healthRequest cfg) = Resolves r
                     /\ status r = 200%Z).
Proof.
  split; [reflexivity |]. split.
  { unfold healthRequest, healthURL, origin. cbn [url].
    now rewrite !append_assoc. }
  rewrite healthCheck_outcome. eexists. split; [reflexivity |].
  destruct (net (healthRequest cfg)) as [r|e|].
  - split.
    + intros H. exists r. split; [reflexivity | now apply Z.eqb_eq].
    + intros (r' & [= <-] & H). now apply Z.eqb_eq.
  - split; [discriminate | now intros (r & [=] & _)].
  - split; [discriminate | now intros (r & [=] & _)].
Qed.

(** C1. When the probe answers [false], [lint] and [format] both return
    [projectNotRegisteredError] (code [CompileSqlFailure], the fixed
    message, the empty text under ["error"]) and send no POST. *)
Theorem unhealthy_returns_projectNotRegisteredError
    (this : DbtInterface) (timeout : option Z) (w : World) :
  outcome (healthCheck cfg net w) = Normal false ->
  (outcome (lint cfg net this timeout w) = Normal (Payload projectNotRegisteredError)
   /\ requests POST (events (lint cfg net this timeout w)) = [])
  /\ (outcome (format cfg net this timeout w) = Normal (Payload projectNotRegisteredError)
      /\ requests POST (events (format cfg net this timeout w)) = [])
  /\ (code (error projectNotRegisteredError) = CompileSqlFailure
      /\ code_value (code (error projectNotRegisteredError)) = 1%Z
      /\ message (error projectNotRegisteredError)
         = "Sqlfluff currently unavailable. Check that your project does not contain compilation errors."
      /\ data (error projectNotRegisteredError) !! "error" = Some (DString "")).
Proof.
  intros H. destruct (healthCheck_quiet w) as [Hq _].
  rewrite lint_outcome, format_outcome, lint_events, format_events.
  rewrite !requests_app, Hq, H. repeat split.
Qed.

(** The hint of [failedToReachServerError] names the host and the
    port. *)
Lemma failedToReachServerError_hint :
  let hint := "Is the server listening on the " +:+ origin cfg +:+ " address?" in
  data (error (failedToReachServerError cfg)) !! "error" = Some (DString hint)
  /\ includes (origin cfg) hint = true
  /\ includes (dbtInterfaceHost cfg) hint = true
  /\ includes (dbtInterfacePort cfg) hint = true.
Proof.
  cbv zeta. unfold origin. split; [| split; [| split]].
  - unfold failedToReachServerError. cbn [data error].
    rewrite lookup_singleton_eq. do 2 f_equal.
    now rewrite !append_assoc.
  - apply includes_middle.
  - rewrite !append_assoc.
    apply (includes_middle _ "Is the server listening on the http://").
  - rewrite !append_assoc.
    replace ("Is the server listening on the " +:+ "http://" +:+
               dbtInterfaceHost cfg +:+ ":" +:+ dbtInterfacePort cfg +:+
               " address?")
      with (("Is the server listening on the http://" +:+
               dbtInterfaceHost cfg +:+ ":") +:+ dbtInterfacePort cfg +:+
               " address?")
      by (now rewrite !append_assoc).
    apply includes_middle.
Qed.

(** C2, as the code has it.  When the probe answers [true] and the POST
    rejects or is aborted, [lint] and [format] return a payload with the
    code [FailedToReachServer] and the fixed message
    ["Query failed to reach dbt sync server."]; the configured host and
    port are named by the text under ["error"] of its [data], not by the
    message. *)
Theorem post_failure_returns_failedToReachServerError
    (this : DbtInterface) (timeout : option Z) (w : World) :
  outcome (healthCheck cfg net w) = Normal true ->
  let unreachable (r : Reply Returned) :=
    exists c hint,
      outcome r = Normal (Payload c)
      /\ code (error c) = FailedToReachServer
      /\ code_value (code (error c)) = (-1)%Z
      /\ message (error c) = "Query failed to reach dbt sync server."
      /\ data (error c) !! "error" = Some (DString hint)
      /\ includes (dbtInterfaceHost cfg) hint = true
      /\ includes (dbtInterfacePort cfg) hint = true in
  ((exists e, net (lintRequest cfg this) = Rejects e)
     \/ net (lintRequest cfg this) = Stalls ->
   unreachable (lint cfg net this timeout w))
  /\ ((exists e, net (formatRequest cfg this) = Rejects e)
        \/ net (formatRequest cfg this) = Stalls ->
      unreachable (format cfg net this timeout w)).
Proof.
  intros H. cbv zeta.
  destruct failedToReachServerError_hint as (Hd & _ & Hh & Hp).
  rewrite lint_outcome, format_outcome, H. unfold outcome_of.
  split; intros Hpost;
    exists (failedToReachServerError cfg),
           ("Is the server listening on the " +:+ origin cfg +:+ " address?");
    (split; [now destruct Hpost as [[e ->] | ->] |]);
    (do 3 (split; [reflexivity |]));
    (split; [exact Hd | split; [exact Hh | exact Hp]]).
Qed.

(** C3. When the probe answers [true] and the POST resolves, whatever its
    status, [lint] and [format] return the value that [json()] parsed
    from the body, as it is. *)
Theorem success_returns_parsed_body
    (this : DbtInterface) (timeout : option Z) (w : World)
    (r : Response) (v : Json) :
  outcome (healthCheck cfg net w) = Normal true ->
  json r = Normal v ->
  (net (lintRequest cfg this) = Resolves r ->
   outcome (lint cfg net this timeout w) = Normal (Parsed v))
  /\ (net (formatRequest cfg this) = Resolves r ->
      outcome (format cfg net this timeout w) = Normal (Parsed v)).
Proof.
  intros H Hj. rewrite lint_outcome, format_outcome, H. unfold outcome_of.
  split; intros ->; now rewrite Hj.
Qed.

(** When the probe has answered [true], a POST makes its function throw
    exactly when it resolves and [json()] throws, with the same error. *)
Lemma outcome_of_throws (req : Request) (e : JsError) :
  outcome_of cfg net (Normal true) req = Throw e <->
  exists r, net req = Resolves r /\ json r = Throw e.
Proof.
  unfold outcome_of. destruct (net req) as [r|e1|].
  - destruct (json r) as [v|e1] eqn:Hj.
    + split; [discriminate | intros (r' & [= <-] & H); congruence].
    + split; [intros [= <-]; now exists r |].
      intros (r' & [= <-] & H). congruence.
  - split; [discriminate | now intros (r' & [=] & _)].
  - split; [discriminate | now intros (r' & [=] & _)].
Qed.

(** C4, as the code has it.  [healthCheck] never throws.  [lint] and
    [format] absorb a failed probe and a failed POST into a payload; they
    throw in one case only, when the POST resolves and [json()] throws
    while reading or parsing the body, and then with that very error. *)
Theorem only_json_errors_escape
    (this : DbtInterface) (timeout : option Z) (w : World) :
  (exists b, outcome (healthCheck cfg net w) = Normal b)
  /\ (forall e,
        outcome (lint cfg net this timeout w) = Throw e <->
        outcome (healthCheck cfg net w) = Normal true
        /\ exists r, net (lintRequest cfg this) = Resolves r
                     /\ json r = Throw e)
  /\ (forall e,
        outcome (format cfg net this timeout w) = Throw e <->
        outcome (healthCheck cfg net w) = Normal true
        /\ exists r, net (formatRequest cfg this) = Resolves r
                     /\ json r = Throw e).
Proof.
  rewrite lint_outcome, format_outcome.
  pose proof (healthCheck_outcome w) as Ho.
  destruct (outcome (healthCheck cfg net w)) as [[|]|e0]; [| | discriminate Ho].
  - split; [now eexists |].
    split; intros e; rewrite outcome_of_throws; tauto.
  - split; [now eexists |]. cbn.
    split; intros e; (split; [discriminate | now intros [[=] _]]).
Qed.

(** Count the timers of an explicit list of events. *)
Ltac timers :=
  repeat (progress
            (cbv [timers_created clears_of timer_scan timers_released
                  existsb List.filter negb orb app];
             rewrite ?Nat.eqb_refl, ?eqb_succ_l, ?eqb_succ_r)).

Ltac timers_ok :=
  split;
  [split;
   [cbv [timers_created app];
    repeat (apply List.NoDup_cons; [cbn [In]; lia |]); apply List.NoDup_nil
   |intros t Hin; cbv [timers_created app] in Hin; cbn [In] in Hin;
    repeat (destruct Hin as [<- | Hin]); [timers; reflexivity .. | destruct Hin]]
  |timers; reflexivity].

(** C5. On every path through [healthCheck], [lint] and [format], each
    timer created is cleared exactly once: the timers are distinct,
    [clearTimeout] is called once on each, after its creation, and none
    is pending at the end.  For [lint] and [format] this covers the timer
    of the probe they run and their own. *)
Theorem timers_cleared_exactly_once
    (this : DbtInterface) (timeout : option Z) (w : World) :
  (cleared_exactly_once (events (healthCheck cfg net w))
   /\ timers_released (events (healthCheck cfg net w)) = true)
  /\ (cleared_exactly_once (events (lint cfg net this timeout w))
      /\ timers_released (events (lint cfg net this timeout w)) = true)
  /\ (cleared_exactly_once (events (format cfg net this timeout w))
      /\ timers_released (events (format cfg net this timeout w)) = true).
Proof.
  rewrite lint_events, format_events, healthCheck_outcome, healthCheck_events.
  unfold events_of, cleared_exactly_once.
  destruct (net (healthRequest cfg)) as [rh|eh|];
    [destruct (status rh =? 200)%Z |..];
    (split; [timers_ok |]);
    (split;
     [destruct (net (lintRequest cfg this)); timers_ok
     |destruct (net (formatRequest cfg this)); timers_ok]).
Qed.

(** The lines written for a POST, once the probe has answered [true]. *)
Lemma events_of_silent (req : Request) (label : string) (ms : Z)
    (t : Timer) (c : Controller) :
  channel_writes (events_of net (Normal true) req label ms t c) = [] <->
  exists r, net req = Resolves r.
Proof.
  unfold events_of. destruct (net req) as [r|e|]; cbn.
  - split; [now exists r | reflexivity].
  - split; [discriminate | now intros [r [=]]].
  - split; [discriminate | now intros [r [=]]].
Qed.

(** C9. [lint] and [format] write to the output channel on the failure
    paths only: nothing is written exactly when the probe answers [true]
    and the POST resolves. *)
Theorem channel_written_on_failure_only
    (this : DbtInterface) (timeout : option Z) (w : World) :
  (channel_writes (events (lint cfg net this timeout w)) = [] <->
   outcome (healthCheck cfg net w) = Normal true
   /\ exists r, net (lintRequest cfg this) = Resolves r)
  /\ (channel_writes (events (format cfg net this timeout w)) = [] <->
      outcome (healthCheck cfg net w) = Normal true
      /\ exists r, net (formatRequest cfg this) = Resolves r).
Proof.
  rewrite lint_events, format_events, !channel_writes_app.
  rewrite (proj2 (healthCheck_quiet w)). cbn [app].
  pose proof (healthCheck_outcome w) as Ho.
  destruct (outcome (healthCheck cfg net w)) as [[|]|e0]; [| | discriminate Ho].
  - rewrite !events_of_silent. tauto.
  - cbn. split; (split; [discriminate | now intros [[=] _]]).
Qed.

End ClientFacts.

(** *** The three functions on concrete networks *)

(** A [lint] whose POST is never answered: the probe with its timer, then
    the POST with its own, the abort, the five lines and the clearing. *)
Example lint_stalled_trace :
  events (lint localhost (healthy_server Stalls) select_1 None start)
    = [SetTimeout 0 0 1000;
       Fetch {| method := GET; url := "http://localhost:8581/health";
                body := None |} 0;
       ClearTimeout 0;
       SetTimeout 1 1 25000;
       Fetch {| method := POST; url := "http://localhost:8581/lint?";
                body := Some "select 1" |} 1;
       Aborted 1;
       AppendHyphenatedLine;
       AppendLine (Text "Raw dbt-core-interface /lint error response:");
       AppendHyphenatedLine;
       AppendLine (Raw AbortError);
       AppendHyphenatedLine;
       ClearTimeout 1].
Proof. vm_compute. reflexivity. Qed.

(** A [format] with nothing listening: the probe, then three lines. *)
Example format_unhealthy_trace :
  events (format localhost no_server select_1 (Some 500%Z) start)
    = [SetTimeout 0 0 1000;
       Fetch {| method := GET; url := "http://localhost:8581/health";
                body := None |} 0;
       ClearTimeout 0;
       AppendHyphenatedLine;
       AppendLine (Text "Unhealthy dbt project:");
       AppendHyphenatedLine].
Proof. vm_compute. reflexivity. Qed.

(** C1, when nothing listens on the port. *)
Lemma unhealthy_returns_projectNotRegisteredError_witness :
  outcome (healthCheck localhost no_server start) = Normal false
  /\ outcome (lint localhost no_server select_1 None start)
     = Normal (Payload projectNotRegisteredError)
  /\ requests POST (events (lint localhost no_server select_1 None start)) = []
  /\ outcome (format localhost no_server select_1 None start)
     = Normal (Payload projectNotRegisteredError)
  /\ requests POST (events (format localhost no_server select_1 None start)) = [].
Proof.
  assert (H : outcome (healthCheck localhost no_server start) = Normal false)
    by (vm_compute; reflexivity).
  destruct (unhealthy_returns_projectNotRegisteredError localhost no_server
              select_1 None start H)
    as ((L1 & L2) & (F1 & F2) & _).
  repeat split; assumption.
Defined.

(** C2 as stated fails: with the probe answering 200 and the POST refused,
    the payload has the code [FailedToReachServer], and its message
    contains neither ["localhost"] nor ["8581"]. *)
Lemma message_without_host_and_port :
  let net := healthy_server (Rejects ECONNREFUSED) in
  outcome (healthCheck localhost net start) = Normal true
  /\ net (lintRequest localhost select_1) = Rejects ECONNREFUSED
  /\ ~ (exists c,
          outcome (lint localhost net select_1 None start) = Normal (Payload c)
          /\ code (error c) = FailedToReachServer
          /\ includes (dbtInterfaceHost localhost) (message (error c)) = true
          /\ includes (dbtInterfacePort localhost) (message (error c)) = true).
Proof.
  cbv zeta. split; [vm_compute; reflexivity |]. split; [reflexivity |].
  intros (c & Hc & _ & Hhost & _).
  assert (E : outcome (lint localhost (healthy_server (Rejects ECONNREFUSED))
                         select_1 None start)
              = Normal (Payload (failedToReachServerError localhost)))
    by (rewrite lint_outcome; reflexivity).
  rewrite E in Hc. injection Hc as <-.
  vm_compute in Hhost. discriminate Hhost.
Qed.

(** C2 as the code has it, with the POST refused and with the POST aborted. *)
Lemma post_failure_returns_failedToReachServerError_witness :
  (exists c hint,
     outcome (lint localhost (healthy_server (Rejects ECONNREFUSED))
                select_1 None start)
       = Normal (Payload c)
     /\ code (error c) = FailedToReachServer
     /\ code_value (code (error c)) = (-1)%Z
     /\ message (error c) = "Query failed to reach dbt sync server."
     /\ data (error c) !! "error" = Some (DString hint)
     /\ includes "localhost" hint = true
     /\ includes "8581" hint = true)
  /\ (exists c hint,
        outcome (format localhost (healthy_server Stalls)
                   select_1 (Some 10%Z) start)
          = Normal (Payload c)
        /\ code (error c) = FailedToReachServer
        /\ code_value (code (error c)) = (-1)%Z
        /\ message (error c) = "Query failed to reach dbt sync server."
        /\ data (error c) !! "error" = Some (DString hint)
        /\ includes "localhost" hint = true
        /\ includes "8581" hint = true).
Proof.
  assert (H1 : outcome (healthCheck localhost
                          (healthy_server (Rejects ECONNREFUSED)) start)
               = Normal true) by (vm_compute; reflexivity).
  assert (H2 : outcome (healthCheck localhost (healthy_server Stalls) start)
               = Normal true) by (vm_compute; reflexivity).
  split.
  - refine (proj1 (post_failure_returns_failedToReachServerError localhost
                     (healthy_server (Rejects ECONNREFUSED))
                     select_1 None start H1) _).
    left. exists ECONNREFUSED. reflexivity.
  - refine (proj2 (post_failure_returns_failedToReachServerError localhost
                     (healthy_server Stalls)
                     select_1 (Some 10%Z) start H2) _).
    right. reflexivity.
Defined.

(** C3, for a [format] POST that resolves with status 200 and the body
    [{"result":"ok"}]. *)
Lemma success_returns_parsed_body_witness :
  let ok := {| status := 200;
               json := Normal (JObject [("result", JString "ok")]) |} in
  outcome (format localhost (healthy_server (Resolves ok)) select_1 None start)
    = Normal (Parsed (JObject [("result", JString "ok")])).
Proof.
  cbv zeta.
  assert (H : outcome (healthCheck localhost
                         (healthy_server
                            (Resolves {| status := 200;
                               json := Normal (JObject [("result", JString "ok")]) |}))
                         start)
              = Normal true) by (vm_compute; reflexivity).
  refine (proj2 (success_returns_parsed_body localhost _ select_1 None start
                   {| status := 200;
                      json := Normal (JObject [("result", JString "ok")]) |}
                   (JObject [("result", JString "ok")]) H eq_refl) eq_refl).
Defined.

(** C4 as stated fails: with the probe answering 200 and the POST answering
    200 with a page of HTML, [json()] throws and so do [lint] and
    [format]. *)
Lemma parse_error_escapes :
  (outcome (lint localhost html_server select_1 None start) = Throw unexpected_token
   /\ ~ exists x, outcome (lint localhost html_server select_1 None start) = Normal x)
  /\ (outcome (format localhost html_server select_1 None start) = Throw unexpected_token
      /\ ~ exists x, outcome (format localhost html_server select_1 None start) = Normal x).
Proof.
  assert (L : outcome (lint localhost html_server select_1 None start)
              = Throw unexpected_token) by (vm_compute; reflexivity).
  assert (F : outcome (format localhost html_server select_1 None start)
              = Throw unexpected_token) by (vm_compute; reflexivity).
  rewrite L, F. repeat split; intros [x [=]].
Qed.

(** * Further properties of the code *)

(** ** The URL builders on every instance *)

Section MoreStringFacts.

Lemma append_cancel_l (a x y : string) : a +:+ x = a +:+ y -> x = y.
Proof.
  induction a as [|c a IH]; rewrite ?append_nil, ?append_cons;
    [trivial | intros [= H]; auto].
Qed.

Lemma append_cancel_r (s x y : string) : x +:+ s = y +:+ s -> x = y.
Proof.
  revert y. induction x as [|c x IH]; intros [|d y];
    rewrite ?append_nil, ?append_cons; intros H.
  - reflexivity.
  - apply (f_equal String.length) in H.
    cbn [String.length] in H. rewrite length_append in H. lia.
  - apply (f_equal String.length) in H.
    cbn [String.length] in H. rewrite length_append in H. lia.
  - injection H as -> H. f_equal. now apply IH.
Qed.

Lemma every_app (p : ascii -> bool) (a b : string) :
  every p (a +:+ b) = every p a && every p b.
Proof.
  induction a as [|c a IH]; rewrite ?append_nil, ?append_cons;
    cbn [every]; [reflexivity |].
  rewrite IH. now destruct (p c).
Qed.

End MoreStringFacts.

Section MoreUrlFacts.

Variable cfg : Configuration.

Lemma getLintURL_query (this : DbtInterface) :
  getLintURL cfg this = origin cfg +:+ "/lint?" +:+ queryString this.
Proof.
  unfold getLintURL, queryString, origin.
  destruct (sql this), (truthy (extra_config_path this));
    rewrite !append_assoc; reflexivity.
Qed.

Lemma getFormatURL_query (this : DbtInterface) :
  getFormatURL cfg this = origin cfg +:+ "/format?" +:+ queryString this.
Proof.
  unfold getFormatURL, queryString, origin.
  destruct (sql this), (truthy (extra_config_path this));
    rewrite !append_assoc; reflexivity.
Qed.

(** X1. The two builders differ in the endpoint only: each URL is the
    origin, ["/lint?"] or ["/format?"], and one and the same query string,
    which does not depend on the configuration. *)
Theorem builders_share_query (this : DbtInterface) :
  getLintURL cfg this = origin cfg +:+ "/lint?" +:+ queryString this
  /\ getFormatURL cfg this = origin cfg +:+ "/format?" +:+ queryString this.
Proof. split; [apply getLintURL_query | apply getFormatURL_query]. Qed.

(** X2. In SQL-text mode neither the text nor the SQL path reaches the
    URL.  With an empty extra-config path the URL stops at the [?]; with
    any other the query starts with [&], for both builders. *)
Theorem text_mode_urls (text : string) (path : option string)
    (c : ascii) (extra : string) :
  let bare := {| sql := Some text; sql_path := path;
                 extra_config_path := EmptyString |} in
  let full := {| sql := Some text; sql_path := path;
                 extra_config_path := String c extra |} in
  getLintURL cfg bare = origin cfg +:+ "/lint?"
  /\ getFormatURL cfg bare = origin cfg +:+ "/format?"
  /\ getLintURL cfg full
     = origin cfg +:+ "/lint?&extra_config_path=" +:+ String c extra
  /\ getFormatURL cfg full
     = origin cfg +:+ "/format?&extra_config_path=" +:+ String c extra.
Proof.
  cbv zeta. rewrite !getLintURL_query, !getFormatURL_query.
  unfold queryString. cbn [sql sql_path extra_config_path truthy].
  repeat split; rewrite ?append_nil; reflexivity.
Qed.

(** X3. In path mode, with the extra-config path fixed, two instances get
    the same URL exactly when their SQL paths render to the same text; so
    the URL tells the path, except that an undefined path and the path
    ["undefined"] cannot be told apart. *)
Theorem path_mode_url_tells_path (p1 p2 : option string) (extra : string) :
  let at_path p := {| sql := None; sql_path := p;
                      extra_config_path := extra |} in
  (getLintURL cfg (at_path p1) = getLintURL cfg (at_path p2)
   <-> template p1 = template p2)
  /\ (getFormatURL cfg (at_path p1) = getFormatURL cfg (at_path p2)
      <-> template p1 = template p2)
  /\ getLintURL cfg (at_path None) = getLintURL cfg (at_path (Some "undefined")).
Proof.
  cbv zeta. rewrite !getLintURL_query, !getFormatURL_query.
  unfold queryString. cbn [sql sql_path extra_config_path].
  assert (Q : forall q1 q2 : string,
             (if truthy extra
              then ("sql_path=" +:+ q1) +:+ "&extra_config_path=" +:+ extra
              else "sql_path=" +:+ q1)
             = (if truthy extra
                then ("sql_path=" +:+ q2) +:+ "&extra_config_path=" +:+ extra
                else "sql_path=" +:+ q2)
             -> q1 = q2).
  { intros q1 q2 H. destruct (truthy extra).
    - apply append_cancel_r in H. now apply append_cancel_l in H.
    - now apply append_cancel_l in H. }
  split; [| split].
  - split; [| now intros ->].
    intros H. rewrite !append_assoc in H.
    do 2 apply append_cancel_l in H. apply Q. exact H.
  - split; [| now intros ->].
    intros H. rewrite !append_assoc in H.
    do 2 apply append_cancel_l in H. apply Q. exact H.
  - reflexivity.
Qed.

(** X4. Whatever the mode, a non-empty extra-config path is the last thing
    in both URLs, after ["&extra_config_path="]. *)
Theorem extra_config_path_comes_last (this : DbtInterface) :
  truthy (extra_config_path this) = true ->
  endsWith ("&extra_config_path=" +:+ extra_config_path this)
    (getLintURL cfg this) = true
  /\ endsWith ("&extra_config_path=" +:+ extra_config_path this)
       (getFormatURL cfg this) = true.
Proof.
  intros H. rewrite getLintURL_query, getFormatURL_query.
  unfold queryString. rewrite H.
  generalize ("&extra_config_path=" +:+ extra_config_path this) as suffix.
  intros suffix. split; rewrite <- !append_assoc; apply endsWith_app.
Qed.

End MoreUrlFacts.

(** X4, for a path-mode instance with the extra-config path [cfg.yml]. *)
Lemma extra_config_path_comes_last_witness :
  let this := {| sql := None; sql_path := Some "models/a.sql";
                 extra_config_path := "cfg.yml" |} in
  getLintURL localhost this
    = "http://localhost:8581/lint?sql_path=models/a.sql&extra_config_path=cfg.yml"
  /\ endsWith "&extra_config_path=cfg.yml" (getLintURL localhost this) = true
  /\ endsWith "&extra_config_path=cfg.yml" (getFormatURL localhost this) = true.
Proof.
  cbv zeta. split; [reflexivity |].
  exact (extra_config_path_comes_last localhost
           {| sql := None; sql_path := Some "models/a.sql";
              extra_config_path := "cfg.yml" |} eq_refl).
Defined.

(** ** The URL that is sent *)

Section EncodingFacts.

Lemma encodeURI_app (a b : string) :
  encodeURI (a +:+ b) = encodeURI a +:+ encodeURI b.
Proof.
  induction a as [|c a IH]; rewrite ?append_nil, ?append_cons;
    [reflexivity |].
  cbn [encodeURI]. rewrite IH. now destruct (uri_unescaped c).
Qed.

Lemma hex_digit_unescaped (n : N) : uri_unescaped (hex_digit n) = true.
Proof.
  destruct n as [|p]; [reflexivity |].
  do 4 (try destruct p as [p|p|]); reflexivity.
Qed.

Lemma encodeURI_characters (s : string) :
  every uri_character (encodeURI s) = true.
Proof.
  induction s as [|c s IH]; [reflexivity |].
  cbn [encodeURI]. destruct (uri_unescaped c) eqn:E; cbn [every].
  - unfold uri_character at 1. now rewrite E, IH.
  - rewrite IH. unfold uri_character. now rewrite !hex_digit_unescaped.
Qed.

Lemma length_encodeURI (s : string) :
  String.length s <= String.length (encodeURI s).
Proof.
  induction s as [|c s IH]; [reflexivity |].
  cbn [encodeURI]. destruct (uri_unescaped c); cbn [String.length]; lia.
Qed.

(** [encodeURI] returns its argument exactly on the texts made of
    unescaped characters. *)
Lemma encodeURI_fixes (s : string) :
  encodeURI s = s <-> every uri_unescaped s = true.
Proof.
  induction s as [|c s IH]; [now split |].
  cbn [encodeURI every]. destruct (uri_unescaped c) eqn:E.
  - rewrite andb_true_l, <- IH. split; [now intros [= H] | now intros ->].
  - split; [| discriminate]. intros [= _ H].
    apply (f_equal String.length) in H. cbn [String.length] in H.
    pose proof (length_encodeURI s). lia.
Qed.

Variable cfg : Configuration.

(** X5. The URL of the POST is the built URL with the host, the port and
    the query string percent-encoded each on its own: the scheme, the
    separators and the endpoint stay as they are. *)
Theorem post_url_encodes_parts (this : DbtInterface) :
  url (lintRequest cfg this)
    = "http://" +:+ encodeURI (dbtInterfaceHost cfg) +:+ ":"
        +:+ encodeURI (dbtInterfacePort cfg) +:+ "/lint?"
        +:+ encodeURI (queryString this)
  /\ url (formatRequest cfg this)
     = "http://" +:+ encodeURI (dbtInterfaceHost cfg) +:+ ":"
         +:+ encodeURI (dbtInterfacePort cfg) +:+ "/format?"
         +:+ encodeURI (queryString this).
Proof.
  unfold lintRequest, formatRequest. cbn [url].
  rewrite getLintURL_query, getFormatURL_query. unfold origin.
  rewrite !encodeURI_app, !append_assoc. split; reflexivity.
Qed.

(** X6. Whatever the configuration and the instance hold, the URL of the
    POST is made of unescaped URI characters and percent signs only. *)
Theorem post_url_is_uri_text (this : DbtInterface) :
  every uri_character (url (lintRequest cfg this)) = true
  /\ every uri_character (url (formatRequest cfg this)) = true.
Proof. split; apply encodeURI_characters. Qed.

(** X7. The POST goes to the very URL the builder returns exactly when
    that URL holds unescaped URI characters only; the characters [?], [&]
    and [=] are among them, so nothing a path or an extra-config path
    holds of these is escaped. *)
Theorem post_url_unchanged_iff (this : DbtInterface) :
  (url (lintRequest cfg this) = getLintURL cfg this
   <-> every uri_unescaped (getLintURL cfg this) = true)
  /\ (url (formatRequest cfg this) = getFormatURL cfg this
      <-> every uri_unescaped (getFormatURL cfg this) = true)
  /\ every uri_unescaped "?&=" = true.
Proof.
  split; [apply encodeURI_fixes |]. split; [apply encodeURI_fixes |].
  reflexivity.
Qed.

End EncodingFacts.

(** ** The calls made by the three functions *)

Section MoreClientFacts.

Variable cfg : Configuration.
Variable net : Network.

(** Run one path of the monad, as for the equations of the outcomes and
    of the events. *)
Ltac exec :=
  cbv [mbind mret M_bind M_ret try_catch try_finally try_or_return emit
       throw await clearTimeout appendHyphenatedLine appendLine setTimeout
       newAbortController outcome events world app negb default].

Ltac exec_paths req :=
  unfold lint, format, healthCheck, fetch;
  destruct (net (healthRequest cfg)) as [rh|eh|];
  [| destruct (net req); reflexivity ..];
  destruct (net req) as [r|e|]; exec;
  (destruct (status rh =? 200)%Z; exec; [| reflexivity]);
  [destruct (json r) | ..]; reflexivity.

(** The handles given out by one call. *)
Lemma healthCheck_world (w : World) :
  world (healthCheck cfg net w)
    = {| timers_made := S (timers_made w);
         controllers_made := S (controllers_made w) |}.
Proof. exec_paths (healthRequest cfg). Qed.

Lemma lint_world (this : DbtInterface) (timeout : option Z) (w : World) :
  world (lint cfg net this timeout w)
    = match net (healthRequest cfg) with
      | Resolves rh =>
          if (status rh =? 200)%Z
          then {| timers_made := S (S (timers_made w));
                  controllers_made := S (S (controllers_made w)) |}
          else {| timers_made := S (timers_made w);
                  controllers_made := S (controllers_made w) |}
      | _ => {| timers_made := S (timers_made w);
                controllers_made := S (controllers_made w) |}
      end.
Proof. exec_paths (lintRequest cfg this). Qed.

Lemma format_world (this : DbtInterface) (timeout : option Z) (w : World) :
  world (format cfg net this timeout w)
    = match net (healthRequest cfg) with
      | Resolves rh =>
          if (status rh =? 200)%Z
          then {| timers_made := S (S (timers_made w));
                  controllers_made := S (S (controllers_made w)) |}
          else {| timers_made := S (timers_made w);
                  controllers_made := S (controllers_made w) |}
      | _ => {| timers_made := S (timers_made w);
                controllers_made := S (controllers_made w) |}
      end.
Proof. exec_paths (formatRequest cfg this). Qed.

#[local] Opaque healthCheck lint format.

(** Put the events of a call in front of the reader, path by path. *)
Ltac on_paths :=
  rewrite ?lint_events, ?format_events, ?lint_world, ?format_world,
    ?healthCheck_world;
  rewrite ?healthCheck_outcome, ?healthCheck_events;
  unfold events_of;
  destruct (net (healthRequest cfg)) as [rh|eh|];
  [destruct (status rh =? 200)%Z |..].

Ltac read :=
  cbv [requests channel_writes timers_created timers_cleared timer_delays
       pending_peak app method healthRequest lintRequest formatRequest
       Nat.max Nat.pred length seq timers_made].






(** X11. The timers.  The probe is guarded by a timer of 1000 ms; the POST
    by a timer of the given delay, 25000 ms when the caller gives none, and
    it is set only after the probe answered [true].  Leaving the delay out
    and passing 25000 are the same call. *)
Theorem timer_delays_set (this : DbtInterface) (timeout : option Z)
    (w : World) :
  let after_probe :=
    match outcome (healthCheck cfg net w) with
    | Normal true => [default 25000%Z timeout]
    | _ => []
    end in
  timer_delays (events (healthCheck cfg net w)) = [1000%Z]
  /\ timer_delays (events (lint cfg net this timeout w)) = 1000%Z :: after_probe
  /\ timer_delays (events (format cfg net this timeout w)) = 1000%Z :: after_probe
  /\ lint cfg net this None w = lint cfg net this (Some 25000%Z) w
  /\ format cfg net this None w = format cfg net this (Some 25000%Z) w.
Proof.
  cbv zeta. split; [| split; [| split; [| split; reflexivity]]].
  - on_paths; reflexivity.
  - on_paths; try destruct (net (lintRequest cfg this)); reflexivity.
  - on_paths; try destruct (net (formatRequest cfg this)); reflexivity.
Qed.

(** X12. A call touches its own timers only.  The timers it creates are
    the next handles after those given out before the call, it clears
    exactly these, in the order of their creation, and the world it leaves
    counts them; so no timer that was pending before the call is ever
    cleared by it. *)
Theorem own_timers_only (this : DbtInterface) (timeout : option Z)
    (w : World) :
  let own (r : Reply Returned) :=
    timers_cleared (events r) = timers_created (events r)
    /\ timers_created (events r)
       = seq (timers_made w) (length (timers_created (events r)))
    /\ timers_made (world r)
       = timers_made w + length (timers_created (events r)) in
  (timers_cleared (events (healthCheck cfg net w)) = [timers_made w]
   /\ timers_created (events (healthCheck cfg net w)) = [timers_made w]
   /\ timers_made (world (healthCheck cfg net w)) = S (timers_made w))
  /\ own (lint cfg net this timeout w)
  /\ own (format cfg net this timeout w).
Proof.
  cbv zeta. split; [| split].
  - on_paths; repeat split; reflexivity.
  - on_paths; try destruct (net (lintRequest cfg this)); read;
      repeat split; try reflexivity; lia.
  - on_paths; try destruct (net (formatRequest cfg this)); read;
      repeat split; try reflexivity; lia.
Qed.

(** X13. At no moment of a call are two timers pending: the timer of the
    probe is cleared before the timer of the POST is set. *)
Theorem one_timer_at_a_time (this : DbtInterface) (timeout : option Z)
    (w : World) :
  pending_peak 0 (events (healthCheck cfg net w)) = 1
  /\ pending_peak 0 (events (lint cfg net this timeout w)) = 1
  /\ pending_peak 0 (events (format cfg net this timeout w)) = 1.
Proof.
  split; [| split].
  - on_paths; reflexivity.
  - on_paths; try destruct (net (lintRequest cfg this)); reflexivity.
  - on_paths; try destruct (net (formatRequest cfg this)); reflexivity.
Qed.

(** X14. [lint] and [format] are one function of what the network does to
    their POST: when both POSTs are settled the same way, both calls
    complete the same way, with the same timers and as many lines
    written. *)
Theorem lint_and_format_agree (this : DbtInterface) (timeout : option Z)
    (w : World) :
  net (lintRequest cfg this) = net (formatRequest cfg this) ->
  outcome (lint cfg net this timeout w) = outcome (format cfg net this timeout w)
  /\ timers_created (events (lint cfg net this timeout w))
     = timers_created (events (format cfg net this timeout w))
  /\ timer_delays (events (lint cfg net this timeout w))
     = timer_delays (events (format cfg net this timeout w))
  /\ length (channel_writes (events (lint cfg net this timeout w)))
     = length (channel_writes (events (format cfg net this timeout w))).
Proof.
  intros H. rewrite lint_outcome, format_outcome.
  unfold outcome_of. rewrite H. split; [reflexivity |].
  on_paths; rewrite ?H; try destruct (net (formatRequest cfg this));
    repeat split; reflexivity.
Qed.

End MoreClientFacts.

(** X14, with the probe answering 200 and both POSTs refused. *)
Lemma lint_and_format_agree_witness :
  outcome (lint localhost (healthy_server (Rejects ECONNREFUSED))
             select_1 None start)
    = outcome (format localhost (healthy_server (Rejects ECONNREFUSED))
                 select_1 None start)
  /\ length (channel_writes
               (events (lint localhost (healthy_server (Rejects ECONNREFUSED))
                          select_1 None start))) = 5.
Proof.
  assert (H : healthy_server (Rejects ECONNREFUSED)
                (lintRequest localhost select_1)
              = healthy_server (Rejects ECONNREFUSED)
                  (formatRequest localhost select_1))
    by (vm_compute; reflexivity).
  destruct (lint_and_format_agree localhost
              (healthy_server (Rejects ECONNREFUSED)) select_1 None start H)
    as (O & _ & _ & _).
  split; [exact O | vm_compute; reflexivity].
Defined.

